(** * Butterfly wind tunnel for Grasshopper ([windtunnel.py])

    A shallow embedding of [WindTunnelGH]: the class method
    [from_geometries_wind_vector_and_parameters] and the method
    [to_openfoam_case].  The class only marshals arguments for code that
    lives elsewhere (the roughness table [Z0], the document-unit query,
    [TunnelParameters], the base class constructor and [Case]), so the
    embedding is a state-and-exception monad over an abstract external
    world, with a log of the calls made to those collaborators.  Truth
    testing and text conversion of foreign objects run the objects' own
    code and may raise. *)

From Stdlib Require Import ZArith QArith List String Ascii Bool Lia.
From Stdlib Require Import DecimalString.
Import ListNotations.

Local Open Scope string_scope.
Local Open Scope Z_scope.

(** ** Python values *)

(** References to objects owned by foreign code (geometries, vectors,
    parameter bundles, the tunnel itself). *)
Definition objref := nat.

(** The values the two methods handle.  Floats are only forwarded, never
    computed with, so a rational stands for the literal. *)
#[warnings="-register-all"]
Inductive pyval : Type :=
| PyNone
| PyBool (b : bool)
| PyInt (z : Z)
| PyFloat (q : Q)
| PyStr (s : string)
| PyList (l : list pyval)
| PyObj (r : objref).
Arguments PyObj r%_nat.

(** ** Exceptions *)

(** [except Exception] catches the subclasses of [Exception] and lets the
    other [BaseException]s (KeyboardInterrupt, SystemExit, ...) through. *)
Inductive exn_class : Type :=
| ExceptionClass (name : string)
| BaseOnlyClass (name : string).

Record exn : Type := mkExn { exn_cls : exn_class; exn_msg : string }.

Definition is_Exception (e : exn) : bool :=
  match exn_cls e with
  | ExceptionClass _ => true
  | BaseOnlyClass _ => false
  end.

Definition ValueError (msg : string) : exn :=
  mkExn (ExceptionClass "ValueError") msg.

Inductive outcome (A : Type) : Type :=
| Ok (a : A)
| Raise (e : exn).
Arguments Ok {A} a.
Arguments Raise {A} e.

(** ** Calls to the collaborators *)

Inductive call : Type :=
| CallUnits
    (* convert_document_units_to_meters() *)
| CallTunnelParameters
    (* butterfly.windtunnel.TunnelParameters() *)
| CallBase (cls name geometries wind_vector tunnel_parameters roughness
              meshing_parameters zref convertToMeters : pyval)
    (* super(WindTunnelGH, cls).from_geometries_wind_vector_and_parameters *)
| CallCase (self make2d_parameters : pyval).
    (* Case.from_wind_tunnel(self, make2d_parameters) *)

(** The code outside this file.  Each stateful collaborator reads and
    updates the external world (the Rhino document, the objects it
    allocates) and either returns or raises.  Truth testing
    ([__bool__], [__len__]) and text conversion ([__format__],
    [__str__]) of foreign values read the world and either return or
    raise. *)
Class Collaborators (world : Type) : Type := {
  ext_convert_document_units_to_meters : world -> outcome pyval * world;
  ext_TunnelParameters : world -> outcome pyval * world;
  ext_base_from_geometries_wind_vector_and_parameters :
    pyval -> pyval -> pyval -> pyval -> pyval -> pyval -> pyval -> pyval ->
    pyval -> world -> outcome pyval * world;
  ext_Case_from_wind_tunnel : pyval -> pyval -> world -> outcome pyval * world;
  ext_truth : objref -> world -> outcome bool;
  ext_str : pyval -> world -> outcome string
}.

(** ** The monad *)

Record state (world : Type) : Type := mkState {
  ext : world;
  calls : list call
}.
Arguments mkState {world} ext calls.
Arguments ext {world} s.
Arguments calls {world} s.

Definition M (world A : Type) : Type := state world -> outcome A * state world.

Definition ret {world A} (a : A) : M world A := fun s => (Ok a, s).

Definition bind {world A B} (m : M world A) (k : A -> M world B) : M world B :=
  fun s =>
    match m s with
    | (Ok a, s') => k a s'
    | (Raise e, s') => (Raise e, s')
    end.

Definition raise {world A} (e : exn) : M world A := fun s => (Raise e, s).

(** [try: m except Exception as e: h e] *)
Definition try_except_Exception {world A}
    (m : M world A) (h : exn -> M world A) : M world A :=
  fun s =>
    match m s with
    | (Ok a, s') => (Ok a, s')
    | (Raise e, s') => if is_Exception e then h e s' else (Raise e, s')
    end.

(** A pure computation that may raise. *)
Definition lift_outcome {world A} (o : outcome A) : M world A := fun s => (o, s).

(** Reading the external world without changing it; the reading may
    raise. *)
Definition read {world A} (f : world -> outcome A) : M world A :=
  fun s => (f (ext s), s).

(** Calling a collaborator: the call is logged, then the collaborator
    runs on the external world. *)
Definition invoke {world A} (c : call) (f : world -> outcome A * world)
  : M world A :=
  fun s =>
    let (r, w') := f (ext s) in
    (r, mkState w' (calls s ++ [c])).

Declare Scope py_scope.
Delimit Scope py_scope with py.
Notation "x <- m ;; k" := (bind m (fun x => k))
  (at level 100, m at next level, right associativity) : py_scope.

(** ** Built-in behaviour of values *)

Definition Qeq_zero (q : Q) : bool := Z.eqb (Qnum q) 0.

(** Truth value of a Python value ([bool(v)]).  For a foreign object
    it is what the object's own test answers, if it answers. *)
Definition py_truth {world} `{Collaborators world} (v : pyval) (w : world)
  : outcome bool :=
  match v with
  | PyNone => Ok false
  | PyBool b => Ok b
  | PyInt z => Ok (negb (Z.eqb z 0))
  | PyFloat q => Ok (negb (Qeq_zero q))
  | PyStr s => Ok (negb (String.eqb s ""))
  | PyList l => Ok (match l with [] => false | _ :: _ => true end)
  | PyObj r => ext_truth r w
  end.

(** [str(v)] for the values whose text the language fixes in a few
    words. *)
Definition builtin_str (v : pyval) : option string :=
  match v with
  | PyNone => Some "None"
  | PyBool true => Some "True"
  | PyBool false => Some "False"
  | PyInt z => Some (NilZero.string_of_int (Z.to_int z))
  | PyStr s => Some s
  | PyFloat _ | PyList _ | PyObj _ => None
  end.

(** The text [str.format] inserts for [{}].  Floats, lists and foreign
    objects are written by the interpreter and by the objects' own
    code, which may raise. *)
Definition py_str {world} `{Collaborators world} (v : pyval) (w : world)
  : outcome string :=
  match builtin_str v with
  | Some t => Ok t
  | None => ext_str v w
  end.

(** [a or b]: [a] when it tests true, else the value of [b], which is
    evaluated only then; a test that raises ends the expression. *)
Definition py_or {world} `{Collaborators world}
    (a : pyval) (b : M world pyval) : M world pyval :=
  fun s =>
    match py_truth a (ext s) with
    | Ok true => (Ok a, s)
    | Ok false => b s
    | Raise e => (Raise e, s)
    end.

(** [sub] occurs in [s]. *)
Definition contains (s sub : string) : Prop :=
  exists pre post, s = pre ++ sub ++ post.

Definition newline : string := String (ascii_of_nat 10) EmptyString.

(** ** WindTunnelGH *)

Section WindTunnelGH.

Context {world : Type} `{Collaborators world}.

(** [Z0()[landscape]]: the roughness table of [butterfly.z0], which is
    not part of this file. *)
Variable Z0_getitem : pyval -> outcome pyval.

Local Open Scope py_scope.

Definition convert_document_units_to_meters : M world pyval :=
  invoke CallUnits ext_convert_document_units_to_meters.

Definition TunnelParameters : M world pyval :=
  invoke CallTunnelParameters ext_TunnelParameters.

Definition super_from_geometries_wind_vector_and_parameters
    (cls name geometries wind_vector tunnel_parameters roughness
       meshing_parameters zref convertToMeters : pyval) : M world pyval :=
  invoke (CallBase cls name geometries wind_vector tunnel_parameters
            roughness meshing_parameters zref convertToMeters)
         (ext_base_from_geometries_wind_vector_and_parameters
            cls name geometries wind_vector tunnel_parameters
            roughness meshing_parameters zref convertToMeters).

Definition Case_from_wind_tunnel (self make2d_parameters : pyval)
  : M world pyval :=
  invoke (CallCase self make2d_parameters)
         (ext_Case_from_wind_tunnel self make2d_parameters).

(** ['Invalid input for landscape:{}\n{}'.format(landscape, e)] *)
Definition invalid_landscape_message (landscape : pyval) (e : exn)
    (w : world) : outcome string :=
  match py_str landscape w with
  | Ok t => Ok ("Invalid input for landscape:" ++ t ++ newline ++ exn_msg e)
  | Raise e' => Raise e'
  end.

Definition from_geometries_wind_vector_and_parameters
    (cls name geometries wind_vector tunnel_parameters landscape
       meshing_parameters zref : pyval) : M world pyval :=
  roughness <-
    try_except_Exception
      (lift_outcome (Z0_getitem landscape))
      (fun e =>
         msg <- read (invalid_landscape_message landscape e) ;;
         raise (ValueError msg)) ;;
  convertToMeters <- convert_document_units_to_meters ;;
  tunnel_parameters <- py_or tunnel_parameters TunnelParameters ;;
  super_from_geometries_wind_vector_and_parameters
    cls name geometries wind_vector tunnel_parameters roughness
    meshing_parameters zref convertToMeters.

(** The call with the keyword arguments the caller left out filled in
    from the signature:
    [tunnel_parameters=None, landscape=1, meshing_parameters=None,
     zref=None]. *)
Definition arg_or_default (a : option pyval) (d : pyval) : pyval :=
  match a with Some v => v | None => d end.

Definition call_from_geometries_wind_vector_and_parameters
    (cls name geometries wind_vector : pyval)
    (tunnel_parameters landscape meshing_parameters zref : option pyval)
  : M world pyval :=
  from_geometries_wind_vector_and_parameters
    cls name geometries wind_vector
    (arg_or_default tunnel_parameters PyNone)
    (arg_or_default landscape (PyInt 1))
    (arg_or_default meshing_parameters PyNone)
    (arg_or_default zref PyNone).

Definition to_openfoam_case (self make2d_parameters : pyval)
  : M world pyval :=
  Case_from_wind_tunnel self make2d_parameters.

Definition call_to_openfoam_case (self : pyval)
    (make2d_parameters : option pyval) : M world pyval :=
  to_openfoam_case self (arg_or_default make2d_parameters PyNone).

End WindTunnelGH.

(** ** The roughness table *)

(** Python's [bool] is a subclass of [int]: [True] indexes as 1 and
    [False] as 0. *)
Definition as_integer (v : pyval) : option Z :=
  match v with
  | PyInt z => Some z
  | PyBool b => Some (Z.b2z b)
  | _ => None
  end.

(** Modelled from the spec: the fixed, ordered table of aerodynamic
    roughness lengths held by [butterfly.z0.Z0], which is imported by
    [windtunnel.py] and not defined in it.  The class docstring lists
    the same eight values. *)
Definition roughness_table : list Q :=
  [0.0002; 0.005; 0.03; 0.10; 0.25; 0.5; 1.0; 2.0]%Q.

Definition valid_landscape (v : pyval) : bool :=
  match as_integer v with
  | Some i => (0 <=? i) && (i <=? 7)
  | None => false
  end.

Definition roughness_of (i : Z) : Q := nth (Z.to_nat i) roughness_table 0%Q.

Section Z0.

(** What the table raises on a failed lookup is left open by the
    spec beyond its being a lookup failure with some detail text. *)
Variable lookup_error_name : pyval -> string.
Variable lookup_error_detail : pyval -> string.

Definition lookup_error (landscape : pyval) : exn :=
  mkExn (ExceptionClass (lookup_error_name landscape))
        (lookup_error_detail landscape).

(** Modelled from the spec: [lookup(landscape: int) -> float], which
    fails on out-of-range or non-integer input. *)
Definition Z0_lookup (landscape : pyval) : outcome pyval :=
  match as_integer landscape with
  | Some i =>
      if (0 <=? i) && (i <=? 7)
      then Ok (PyFloat (roughness_of i))
      else Raise (lookup_error landscape)
  | None => Raise (lookup_error landscape)
  end.

End Z0.

(** ** A stand-in world

    A concrete set of collaborators, used to run the methods: objects
    are allocated from a counter, and each collaborator can be switched
    to fail.  Object 0 is an empty bundle, which tests false; object 9
    is broken: its truth test and its text conversion raise. *)
Module Stub.

Record world : Type := mkWorld {
  next_ref : nat;
  units_ok : bool;
  params_ok : bool;
  base_ok : bool;
  case_ok : bool
}.
Arguments mkWorld next_ref%_nat units_ok params_ok base_ok case_ok.

Definition alloc (w : world) : outcome pyval * world :=
  (Ok (PyObj (next_ref w)),
   mkWorld (S (next_ref w)) (units_ok w) (params_ok w) (base_ok w)
           (case_ok w)).

Definition RuntimeError (msg : string) : exn :=
  mkExn (ExceptionClass "RuntimeError") msg.

(** Digits after the point of [r / d], for [0 <= r < d]. *)
Fixpoint fraction_digits (fuel : nat) (r d : Z) : string :=
  match fuel with
  | O => ""
  | S fuel' =>
      if r =? 0 then ""
      else NilZero.string_of_int (Z.to_int ((10 * r) / d))
             ++ fraction_digits fuel' ((10 * r) mod d) d
  end.

(** A float written positionally, [1.5], [0.0002], [2.0]. *)
Definition float_text (q : Q) : string :=
  let n := Z.abs (Qnum q) in
  let d := Z.pos (Qden q) in
  let frac := fraction_digits 17 (n mod d) d in
  (if Qnum q <? 0 then "-" else "")
    ++ NilZero.string_of_int (Z.to_int (n / d)) ++ "."
    ++ (if String.eqb frac "" then "0" else frac).

(** The text of a value inside a list. *)
Fixpoint value_text (v : pyval) : string :=
  match v with
  | PyNone => "None"
  | PyBool true => "True"
  | PyBool false => "False"
  | PyInt z => NilZero.string_of_int (Z.to_int z)
  | PyFloat q => float_text q
  | PyStr s => "'" ++ s ++ "'"
  | PyList l =>
      "[" ++ (fix items (l : list pyval) : string :=
                match l with
                | [] => ""
                | x :: [] => value_text x
                | x :: r => value_text x ++ ", " ++ items r
                end) l ++ "]"
  | PyObj _ => "<object>"
  end.

#[global] Instance collaborators : Collaborators world := {
  ext_convert_document_units_to_meters w :=
    if units_ok w then (Ok (PyFloat 0.001), w)
    else (Raise (RuntimeError "no active document"), w);
  ext_TunnelParameters w :=
    if params_ok w then alloc w
    else (Raise (RuntimeError "tunnel parameters"), w);
  ext_base_from_geometries_wind_vector_and_parameters
    _ _ _ _ _ _ _ _ _ w :=
    if base_ok w then alloc w
    else (Raise (ValueError "invalid geometries"), w);
  ext_Case_from_wind_tunnel _ _ w :=
    if case_ok w then alloc w
    else (Raise (RuntimeError "meshing failed"), w);
  ext_truth r _ :=
    if Nat.eqb r 9 then Raise (RuntimeError "bool failed")
    else Ok (negb (Nat.eqb r 0));
  ext_str v _ :=
    match v with
    | PyObj 9 => Raise (RuntimeError "format failed")
    | _ => Ok (value_text v)
    end
}.

(** A world in which every collaborator answers. *)
Definition healthy : world := mkWorld 10 true true true true.

Definition start (w : world) : state world := mkState w [].

Definition error_name (_ : pyval) : string := "IndexError".
Definition error_detail (_ : pyval) : string := "index out of range".

Definition Z0_getitem : pyval -> outcome pyval :=
  Z0_lookup error_name error_detail.

(** Arguments of a sample call: the class, a name, no geometry, a wind
    vector, a meshing bundle. *)
Definition WindTunnelGH : pyval := PyStr "WindTunnelGH".
Definition tunnel_name : pyval := PyStr "tunnel".
Definition no_geometry : pyval := PyList [].
Definition wind : pyval := PyObj 1.
Definition meshing : pyval := PyObj 2.
Definition tunnel : pyval := PyObj 3.
Definition empty_bundle : pyval := PyObj 0.
Definition broken : pyval := PyObj 9.

(** What stays of the world when an object is allocated. *)
Definition switches (w : world) : bool * bool * bool * bool :=
  (units_ok w, params_ok w, base_ok w, case_ok w).

End Stub.

(** ** What a run of the constructor looks like

    [construct_run] lists the eight ways a call of
    [from_geometries_wind_vector_and_parameters] can go, in terms of
    what the collaborators answer.  [construct_run_total] shows that the
    method always takes one of them. *)

Ltac run_construct :=
  unfold from_geometries_wind_vector_and_parameters, bind,
    try_except_Exception, lift_outcome, read, raise,
    invalid_landscape_message,
    convert_document_units_to_meters, py_or, TunnelParameters,
    super_from_geometries_wind_vector_and_parameters, invoke;
  repeat match goal with
         | E : ?x = _ |- context [?x] => rewrite E; cbn [ext calls]
         end;
  rewrite <- ?app_assoc; try reflexivity.

Ltac same_answers :=
  repeat match goal with
         | A : ?x = _, B : ?x = _ |- _ =>
             rewrite A in B; inversion B; subst; clear B
         end.

Section Behaviour.

Context {world : Type} `{Collaborators world}.
Variable Z0_getitem : pyval -> outcome pyval.
Variables cls name geometries wind_vector : pyval.
Variables tunnel_parameters landscape meshing_parameters zref : pyval.

Local Abbreviation construct :=
  (from_geometries_wind_vector_and_parameters Z0_getitem
     cls name geometries wind_vector tunnel_parameters landscape
     meshing_parameters zref).

Local Abbreviation base_call tp z0 ctm :=
  (CallBase cls name geometries wind_vector tp z0
     meshing_parameters zref ctm).

Local Abbreviation ext_base tp z0 ctm :=
  (ext_base_from_geometries_wind_vector_and_parameters
     cls name geometries wind_vector tp z0 meshing_parameters zref ctm).

Inductive construct_run (s : state world)
  : outcome pyval -> state world -> Prop :=
| run_invalid_landscape e t :
    Z0_getitem landscape = Raise e ->
    is_Exception e = true ->
    py_str landscape (ext s) = Ok t ->
    construct_run s
      (Raise (ValueError ("Invalid input for landscape:" ++ t
                            ++ newline ++ exn_msg e)))
      s
| run_text_failed e e' :
    Z0_getitem landscape = Raise e ->
    is_Exception e = true ->
    py_str landscape (ext s) = Raise e' ->
    construct_run s (Raise e') s
| run_lookup_interrupted e :
    Z0_getitem landscape = Raise e ->
    is_Exception e = false ->
    construct_run s (Raise e) s
| run_units_failed z0 e w1 :
    Z0_getitem landscape = Ok z0 ->
    ext_convert_document_units_to_meters (ext s) = (Raise e, w1) ->
    construct_run s (Raise e) (mkState w1 (calls s ++ [CallUnits]))
| run_truth_failed z0 ctm w1 e :
    Z0_getitem landscape = Ok z0 ->
    ext_convert_document_units_to_meters (ext s) = (Ok ctm, w1) ->
    py_truth tunnel_parameters w1 = Raise e ->
    construct_run s (Raise e) (mkState w1 (calls s ++ [CallUnits]))
| run_given_parameters z0 ctm w1 r w2 :
    Z0_getitem landscape = Ok z0 ->
    ext_convert_document_units_to_meters (ext s) = (Ok ctm, w1) ->
    py_truth tunnel_parameters w1 = Ok true ->
    ext_base tunnel_parameters z0 ctm w1 = (r, w2) ->
    construct_run s r
      (mkState w2
         (calls s ++ [CallUnits; base_call tunnel_parameters z0 ctm]))
| run_default_failed z0 ctm w1 e w2 :
    Z0_getitem landscape = Ok z0 ->
    ext_convert_document_units_to_meters (ext s) = (Ok ctm, w1) ->
    py_truth tunnel_parameters w1 = Ok false ->
    ext_TunnelParameters w1 = (Raise e, w2) ->
    construct_run s (Raise e)
      (mkState w2 (calls s ++ [CallUnits; CallTunnelParameters]))
| run_default_parameters z0 ctm w1 d w2 r w3 :
    Z0_getitem landscape = Ok z0 ->
    ext_convert_document_units_to_meters (ext s) = (Ok ctm, w1) ->
    py_truth tunnel_parameters w1 = Ok false ->
    ext_TunnelParameters w1 = (Ok d, w2) ->
    ext_base d z0 ctm w2 = (r, w3) ->
    construct_run s r
      (mkState w3
         (calls s ++ [CallUnits; CallTunnelParameters; base_call d z0 ctm])).

Lemma app_calls (l : list call) (a b : call) :
  ((l ++ [a]) ++ [b] = l ++ [a; b])%list.
Proof. now rewrite <- app_assoc. Qed.

Lemma app_calls3 (l : list call) (a b c : call) :
  (((l ++ [a]) ++ [b]) ++ [c] = l ++ [a; b; c])%list.
Proof. now rewrite <- !app_assoc. Qed.

(** Every way of running is what the method computes. *)
Lemma construct_run_sound (s : state world) r s' :
  construct_run s r s' -> construct s = (r, s').
Proof. intros R; destruct R; run_construct. Qed.

(** The method always runs in one of the eight ways. *)
Lemma construct_run_total (s : state world) :
  construct_run s (fst (construct s)) (snd (construct s)).
Proof.
  assert (G : forall r s', construct_run s r s' ->
                construct_run s (fst (construct s)) (snd (construct s))).
  { intros r s' R. now rewrite (construct_run_sound s r s' R). }
  destruct (Z0_getitem landscape) as [z0|e] eqn:Hz.
  - destruct (ext_convert_document_units_to_meters (ext s))
      as [[ctm|e] w1] eqn:Hu.
    + destruct (py_truth tunnel_parameters w1) as [[|]|e] eqn:Ht.
      * destruct (ext_base tunnel_parameters z0 ctm w1) as [r w2] eqn:Hb.
        eapply G, run_given_parameters; eassumption.
      * destruct (ext_TunnelParameters w1) as [[d|e] w2] eqn:Hp.
        -- destruct (ext_base d z0 ctm w2) as [r w3] eqn:Hb.
           eapply G, run_default_parameters; eassumption.
        -- eapply G, run_default_failed; eassumption.
      * eapply G, run_truth_failed; eassumption.
    + eapply G, run_units_failed; eassumption.
  - destruct (is_Exception e) eqn:He.
    + destruct (py_str landscape (ext s)) as [t|e'] eqn:Hs.
      * eapply G, run_invalid_landscape; eassumption.
      * eapply G, run_text_failed; eassumption.
    + eapply G, run_lookup_interrupted; eassumption.
Qed.

Lemma construct_run_spec (s : state world) r s' :
  construct s = (r, s') -> construct_run s r s'.
Proof.
  intros E. pose proof (construct_run_total s) as R.
  now rewrite E in R.
Qed.

(** A failed lookup ends the call on the spot. *)
Lemma construct_lookup_failed (s : state world) e :
  Z0_getitem landscape = Raise e ->
  construct s =
    (Raise (if is_Exception e
            then match invalid_landscape_message landscape e (ext s) with
                 | Ok msg => ValueError msg
                 | Raise e' => e'
                 end
            else e),
     s).
Proof.
  intros Hz. apply construct_run_sound.
  destruct (is_Exception e) eqn:He.
  - unfold invalid_landscape_message.
    destruct (py_str landscape (ext s)) as [t|e'] eqn:Hs.
    + exact (run_invalid_landscape s e t Hz He Hs).
    + exact (run_text_failed s e e' Hz He Hs).
  - now apply run_lookup_interrupted.
Qed.

(** Once the lookup, the unit query and the choice of tunnel parameters
    have gone through, the call is the base constructor's. *)
Lemma construct_after_lookup (s : state world) z0 ctm w1 b tp w2 :
  Z0_getitem landscape = Ok z0 ->
  ext_convert_document_units_to_meters (ext s) = (Ok ctm, w1) ->
  py_truth tunnel_parameters w1 = Ok b ->
  (if b then (Ok tunnel_parameters, w1)
   else ext_TunnelParameters w1) = (Ok tp, w2) ->
  construct s =
    (fst (ext_base tp z0 ctm w2),
     mkState (snd (ext_base tp z0 ctm w2))
       (calls s ++ CallUnits ::
          (if b then [] else [CallTunnelParameters])
          ++ [base_call tp z0 ctm])).
Proof.
  intros Hz Hu Ht Hp. apply construct_run_sound.
  destruct b.
  - inversion Hp; subst. cbn [app].
    eapply run_given_parameters; eauto using surjective_pairing.
  - cbn [app].
    eapply run_default_parameters; eauto using surjective_pairing.
Qed.

(** [to_openfoam_case] is one call of the case builder. *)
Lemma to_openfoam_case_run (self make2d_parameters : pyval)
    (s : state world) :
  to_openfoam_case self make2d_parameters s =
    (fst (ext_Case_from_wind_tunnel self make2d_parameters (ext s)),
     mkState (snd (ext_Case_from_wind_tunnel self make2d_parameters (ext s)))
             (calls s ++ [CallCase self make2d_parameters])).
Proof.
  unfold to_openfoam_case, Case_from_wind_tunnel, invoke.
  now destruct (ext_Case_from_wind_tunnel self make2d_parameters (ext s)).
Qed.

End Behaviour.

(** ** Strings *)

Lemma string_app_assoc (a b c : string) : (a ++ b) ++ c = a ++ b ++ c.
Proof. induction a as [|x a IH]; cbn; [reflexivity | now rewrite IH]. Qed.

Lemma string_app_nil_r (a : string) : a ++ "" = a.
Proof. induction a as [|x a IH]; cbn; [reflexivity | now rewrite IH]. Qed.

Lemma contains_middle (pre sub post : string) :
  contains (pre ++ sub ++ post) sub.
Proof. now exists pre, post. Qed.

Lemma contains_end (pre mid sep sub : string) :
  contains (pre ++ mid ++ sep ++ sub) sub.
Proof.
  exists (pre ++ mid ++ sep), "".
  now rewrite string_app_nil_r, !string_app_assoc.
Qed.

(** ** The constructor and the roughness table *)

Section Landscape.

Context {world : Type} `{Collaborators world}.
Variables lookup_error_name lookup_error_detail : pyval -> string.
Variables cls name geometries wind_vector : pyval.
Variables tunnel_parameters meshing_parameters zref : pyval.

Local Abbreviation Z0_getitem :=
  (Z0_lookup lookup_error_name lookup_error_detail).

Lemma Z0_lookup_valid (landscape : pyval) (i : Z) :
  as_integer landscape = Some i -> 0 <= i <= 7 ->
  Z0_getitem landscape = Ok (PyFloat (roughness_of i)).
Proof.
  intros Hi [Hlo Hhi]. unfold Z0_lookup. rewrite Hi.
  apply Z.leb_le in Hlo. apply Z.leb_le in Hhi.
  now rewrite Hlo, Hhi.
Qed.

Lemma Z0_lookup_invalid (landscape : pyval) :
  valid_landscape landscape = false ->
  Z0_getitem landscape =
    Raise (lookup_error lookup_error_name lookup_error_detail landscape).
Proof.
  unfold valid_landscape, Z0_lookup.
  destruct (as_integer landscape) as [i|]; [|reflexivity].
  now intros ->.
Qed.

Lemma roughness_of_table (i : Z) :
  0 <= i <= 7 ->
  In (i, roughness_of i)
     [(0, 0.0002%Q); (1, 0.005%Q); (2, 0.03%Q); (3, 0.10%Q);
      (4, 0.25%Q); (5, 0.5%Q); (6, 1.0%Q); (7, 2.0%Q)].
Proof.
  intros Hi.
  assert (E : i = 0 \/ i = 1 \/ i = 2 \/ i = 3 \/ i = 4 \/ i = 5 \/
              i = 6 \/ i = 7) by lia.
  repeat (destruct E as [-> | E]; [cbn; auto 10 |]).
  subst i; cbn; auto 10.
Qed.

(** The text of a value of a built-in kind is always there. *)
Lemma py_str_builtin (v : pyval) (t : string) (w : world) :
  builtin_str v = Some t -> py_str v w = Ok t.
Proof. unfold py_str. now intros ->. Qed.

(** C1.  For a landscape that is an integer in [0,7] the lookup
    returns the table entry (0 -> 0.0002, 1 -> 0.005, 2 -> 0.03,
    3 -> 0.10, 4 -> 0.25, 5 -> 0.5, 6 -> 1.0, 7 -> 2.0), and when the
    collaborators answer (unit query, truth test of the tunnel
    parameters, default tunnel parameters if they are needed, base
    constructor) the call returns the instance the base constructor
    made, having passed it that entry as roughness. *)
Theorem valid_landscape_forwards_table_value
    (landscape : pyval) (i : Z) (s : state world)
    (ctm : pyval) (w1 : world) (b : bool) (tp : pyval) (w2 : world)
    (inst : pyval) (w3 : world) :
  as_integer landscape = Some i ->
  0 <= i <= 7 ->
  ext_convert_document_units_to_meters (ext s) = (Ok ctm, w1) ->
  py_truth tunnel_parameters w1 = Ok b ->
  (if b then (Ok tunnel_parameters, w1)
   else ext_TunnelParameters w1) = (Ok tp, w2) ->
  ext_base_from_geometries_wind_vector_and_parameters
    cls name geometries wind_vector tp (PyFloat (roughness_of i))
    meshing_parameters zref ctm w2 = (Ok inst, w3) ->
  In (i, roughness_of i)
     [(0, 0.0002%Q); (1, 0.005%Q); (2, 0.03%Q); (3, 0.10%Q);
      (4, 0.25%Q); (5, 0.5%Q); (6, 1.0%Q); (7, 2.0%Q)] /\
  Z0_getitem landscape = Ok (PyFloat (roughness_of i)) /\
  from_geometries_wind_vector_and_parameters Z0_getitem
    cls name geometries wind_vector tunnel_parameters landscape
    meshing_parameters zref s =
    (Ok inst,
     mkState w3
       (calls s ++ CallUnits ::
          (if b then [] else [CallTunnelParameters]) ++
          [CallBase cls name geometries wind_vector tp
             (PyFloat (roughness_of i)) meshing_parameters zref ctm])).
Proof.
  intros Hi Hr Hu Ht Hp Hb.
  pose proof (Z0_lookup_valid landscape i Hi Hr) as Hz.
  split; [now apply roughness_of_table|]. split; [exact Hz|].
  rewrite (construct_after_lookup _ _ _ _ _ _ _ _ _ _ _ _ _ _ _ _
             Hz Hu Ht Hp).
  now rewrite Hb.
Qed.

(** C2.  For a landscape that is not an integer in [0,7] and whose
    text conversion returns the text [t], the call raises the
    landscape error ([ValueError] in the code) and nothing else has
    run; the message of the raised error is the fixed prefix, [t], a
    newline and the text of the lookup failure, so it includes both.
    For a landscape of a built-in kind (None, bool, int, str) the
    conversion always returns, and [t] is [str(landscape)]. *)
Theorem invalid_landscape_raises
    (landscape : pyval) (s : state world) (t : string) :
  valid_landscape landscape = false ->
  py_str landscape (ext s) = Ok t ->
  exists err,
    from_geometries_wind_vector_and_parameters Z0_getitem
      cls name geometries wind_vector tunnel_parameters landscape
      meshing_parameters zref s = (Raise err, s) /\
    exn_cls err = ExceptionClass "ValueError" /\
    exn_msg err =
      "Invalid input for landscape:" ++ t ++ newline
        ++ lookup_error_detail landscape /\
    contains (exn_msg err) t /\
    contains (exn_msg err) (lookup_error_detail landscape) /\
    (forall t', builtin_str landscape = Some t' -> t' = t).
Proof.
  intros Hv Hs.
  pose proof (construct_lookup_failed _ cls name geometries wind_vector
                tunnel_parameters _ meshing_parameters zref s _
                (Z0_lookup_invalid landscape Hv)) as R.
  change (is_Exception (lookup_error lookup_error_name lookup_error_detail
                          landscape)) with true in R.
  unfold invalid_landscape_message in R. rewrite Hs in R.
  cbv beta iota in R.
  eexists. split; [exact R|].
  cbn [exn_cls exn_msg ValueError lookup_error].
  repeat split.
  - apply contains_middle.
  - apply contains_end.
  - intros t' Hb. rewrite (py_str_builtin _ _ _ Hb) in Hs. congruence.
Qed.

(** C8.  A call that leaves [landscape] out is the call with
    [landscape=1], whatever the table; with the roughness table above
    the lookup gives 0.005, and that is the roughness the base
    constructor is called with once the unit query and the choice of
    tunnel parameters have gone through. *)
Theorem landscape_defaults_to_1
    (tunnel_parameters' meshing_parameters' zref' : option pyval)
    (s : state world) (ctm : pyval) (w1 : world) (b : bool)
    (tp : pyval) (w2 : world) :
  ext_convert_document_units_to_meters (ext s) = (Ok ctm, w1) ->
  py_truth (arg_or_default tunnel_parameters' PyNone) w1 = Ok b ->
  (if b then (Ok (arg_or_default tunnel_parameters' PyNone), w1)
   else ext_TunnelParameters w1) = (Ok tp, w2) ->
  (forall lookup : pyval -> outcome pyval,
     call_from_geometries_wind_vector_and_parameters lookup
       cls name geometries wind_vector
       tunnel_parameters' None meshing_parameters' zref' s =
     call_from_geometries_wind_vector_and_parameters lookup
       cls name geometries wind_vector
       tunnel_parameters' (Some (PyInt 1)) meshing_parameters' zref' s) /\
  Z0_getitem (PyInt 1) = Ok (PyFloat 0.005%Q) /\
  calls (snd (call_from_geometries_wind_vector_and_parameters Z0_getitem
                cls name geometries wind_vector
                tunnel_parameters' None meshing_parameters' zref' s)) =
    (calls s ++ CallUnits ::
       (if b then [] else [CallTunnelParameters]) ++
       [CallBase cls name geometries wind_vector tp (PyFloat 0.005%Q)
          (arg_or_default meshing_parameters' PyNone)
          (arg_or_default zref' PyNone) ctm])%list.
Proof.
  intros Hu Ht Hp. split; [reflexivity|]. split; [reflexivity|].
  unfold call_from_geometries_wind_vector_and_parameters.
  cbn [arg_or_default].
  assert (Hz : Z0_getitem (PyInt 1) = Ok (PyFloat 0.005%Q)) by reflexivity.
  now rewrite (construct_after_lookup _ _ _ _ _ _ _ _ _ _ _ _ _ _ _ _
                 Hz Hu Ht Hp).
Qed.

End Landscape.

(** ** The constructor and its collaborators *)

Section Delegation.

Context {world : Type} `{Collaborators world}.
Variable Z0_getitem : pyval -> outcome pyval.
Variables cls name geometries wind_vector : pyval.

(** C3.  When the lookup fails the call ends with the state it
    started in: the external world is untouched and no call has been
    logged, so the unit query, [TunnelParameters()] and the base
    constructor have not run.  What is raised is the landscape error
    with its message, or what the text conversion raised while the
    message was made, or the lookup failure itself when it is not an
    [Exception]. *)
Theorem lookup_failure_is_atomic
    (tunnel_parameters landscape meshing_parameters zref : pyval)
    (s : state world) (e : exn) :
  Z0_getitem landscape = Raise e ->
  from_geometries_wind_vector_and_parameters Z0_getitem
    cls name geometries wind_vector tunnel_parameters landscape
    meshing_parameters zref s =
    (Raise (if is_Exception e
            then match invalid_landscape_message landscape e (ext s) with
                 | Ok msg => ValueError msg
                 | Raise e' => e'
                 end
            else e),
     s) /\
  ext (snd (from_geometries_wind_vector_and_parameters Z0_getitem
              cls name geometries wind_vector tunnel_parameters landscape
              meshing_parameters zref s)) = ext s /\
  calls (snd (from_geometries_wind_vector_and_parameters Z0_getitem
                cls name geometries wind_vector tunnel_parameters landscape
                meshing_parameters zref s)) = calls s.
Proof.
  intros Hz.
  rewrite (construct_lookup_failed _ _ _ _ _ _ _ _ _ _ _ Hz).
  now repeat split.
Qed.

(** C4.  [to_openfoam_case] returns what [Case.from_wind_tunnel]
    returns for [(self, make2d_parameters)], a value or an exception
    alike, and does nothing else than that one call. *)
Theorem to_openfoam_case_delegates
    (self make2d_parameters : pyval) (s : state world) :
  to_openfoam_case self make2d_parameters s =
    (fst (ext_Case_from_wind_tunnel self make2d_parameters (ext s)),
     mkState (snd (ext_Case_from_wind_tunnel self make2d_parameters (ext s)))
             (calls s ++ [CallCase self make2d_parameters])).
Proof. apply to_openfoam_case_run. Qed.

(** C5.  With [tunnel_parameters=None] the base constructor is called
    with the instance that [TunnelParameters()] has just returned. *)
Theorem None_parameters_replaced_by_default
    (landscape meshing_parameters zref : pyval) (s : state world)
    (z0 ctm : pyval) (w1 : world) (d : pyval) (w2 : world) :
  Z0_getitem landscape = Ok z0 ->
  ext_convert_document_units_to_meters (ext s) = (Ok ctm, w1) ->
  ext_TunnelParameters w1 = (Ok d, w2) ->
  from_geometries_wind_vector_and_parameters Z0_getitem
    cls name geometries wind_vector PyNone landscape
    meshing_parameters zref s =
    (fst (ext_base_from_geometries_wind_vector_and_parameters
            cls name geometries wind_vector d z0
            meshing_parameters zref ctm w2),
     mkState
       (snd (ext_base_from_geometries_wind_vector_and_parameters
               cls name geometries wind_vector d z0
               meshing_parameters zref ctm w2))
       (calls s ++
          [CallUnits; CallTunnelParameters;
           CallBase cls name geometries wind_vector d z0
             meshing_parameters zref ctm])).
Proof.
  intros Hz Hu Hp.
  exact (construct_after_lookup _ _ _ _ _ PyNone _ _ _ _ _ _ _ false _ _
           Hz Hu eq_refl Hp).
Qed.

(** C6.  [meshing_parameters] and [zref] reach the base constructor
    as the caller gave them; [None] stays [None]. *)
Theorem zref_and_meshing_parameters_forwarded
    (tunnel_parameters landscape meshing_parameters zref : pyval)
    (s : state world)
    (z0 ctm : pyval) (w1 : world) (b : bool) (tp : pyval) (w2 : world) :
  Z0_getitem landscape = Ok z0 ->
  ext_convert_document_units_to_meters (ext s) = (Ok ctm, w1) ->
  py_truth tunnel_parameters w1 = Ok b ->
  (if b then (Ok tunnel_parameters, w1)
   else ext_TunnelParameters w1) = (Ok tp, w2) ->
  calls (snd (from_geometries_wind_vector_and_parameters Z0_getitem
                cls name geometries wind_vector tunnel_parameters landscape
                meshing_parameters zref s)) =
    (calls s ++ CallUnits ::
       (if b then [] else [CallTunnelParameters]) ++
       [CallBase cls name geometries wind_vector tp z0
          meshing_parameters zref ctm])%list /\
  calls (snd (from_geometries_wind_vector_and_parameters Z0_getitem
                cls name geometries wind_vector tunnel_parameters landscape
                PyNone PyNone s)) =
    (calls s ++ CallUnits ::
       (if b then [] else [CallTunnelParameters]) ++
       [CallBase cls name geometries wind_vector tp z0
          PyNone PyNone ctm])%list.
Proof.
  intros Hz Hu Ht Hp. split.
  - now rewrite (construct_after_lookup _ _ _ _ _ _ _ _ _ _ _ _ _ _ _ _
                   Hz Hu Ht Hp).
  - now rewrite (construct_after_lookup _ _ _ _ _ _ _ _ _ _ _ _ _ _ _ _
                   Hz Hu Ht Hp).
Qed.

(** C7.  Two calls of [to_openfoam_case] with the same argument log
    the same call of the case builder twice, and change the external
    world only as the builder does: whatever the builder leaves as it
    was (an observation [obs] of the world, such as the state of the
    tunnel instance) is as it was after both calls. *)
Theorem to_openfoam_case_twice
    {A : Type} (obs : world -> A)
    (self make2d_parameters : pyval) (s : state world) :
  (forall w, obs (snd (ext_Case_from_wind_tunnel self make2d_parameters w))
             = obs w) ->
  calls (snd (to_openfoam_case self make2d_parameters
                (snd (to_openfoam_case self make2d_parameters s)))) =
    (calls s ++ [CallCase self make2d_parameters;
                 CallCase self make2d_parameters])%list /\
  ext (snd (to_openfoam_case self make2d_parameters s)) =
    snd (ext_Case_from_wind_tunnel self make2d_parameters (ext s)) /\
  ext (snd (to_openfoam_case self make2d_parameters
              (snd (to_openfoam_case self make2d_parameters s)))) =
    snd (ext_Case_from_wind_tunnel self make2d_parameters
           (ext (snd (to_openfoam_case self make2d_parameters s)))) /\
  obs (ext (snd (to_openfoam_case self make2d_parameters s))) = obs (ext s) /\
  obs (ext (snd (to_openfoam_case self make2d_parameters
                   (snd (to_openfoam_case self make2d_parameters s))))) =
    obs (ext s).
Proof.
  intros Hobs. rewrite !to_openfoam_case_run. cbn [fst snd ext calls].
  rewrite <- app_assoc, !Hobs. now repeat split.
Qed.

(** C10.  Any false [tunnel_parameters] (None, 0, False, an empty
    list, an object that tests false) is dropped: the base constructor
    is called with the instance [TunnelParameters()] has just
    returned. *)
Theorem falsy_parameters_replaced_by_default
    (tunnel_parameters landscape meshing_parameters zref : pyval)
    (s : state world)
    (z0 ctm : pyval) (w1 : world) (d : pyval) (w2 : world) :
  Z0_getitem landscape = Ok z0 ->
  ext_convert_document_units_to_meters (ext s) = (Ok ctm, w1) ->
  py_truth tunnel_parameters w1 = Ok false ->
  ext_TunnelParameters w1 = (Ok d, w2) ->
  from_geometries_wind_vector_and_parameters Z0_getitem
    cls name geometries wind_vector tunnel_parameters landscape
    meshing_parameters zref s =
    (fst (ext_base_from_geometries_wind_vector_and_parameters
            cls name geometries wind_vector d z0
            meshing_parameters zref ctm w2),
     mkState
       (snd (ext_base_from_geometries_wind_vector_and_parameters
               cls name geometries wind_vector d z0
               meshing_parameters zref ctm w2))
       (calls s ++
          [CallUnits; CallTunnelParameters;
           CallBase cls name geometries wind_vector d z0
             meshing_parameters zref ctm])).
Proof.
  intros Hz Hu Ht Hp.
  exact (construct_after_lookup _ _ _ _ _ _ _ _ _ _ _ _ _ false _ _
           Hz Hu Ht Hp).
Qed.

(** C9.  Whatever fails apart from the lookup reaches the caller as it
    is.  An exception raised by the unit query, by the truth test of
    the tunnel parameters, by [TunnelParameters()], by the base
    constructor or by the case builder is the exception the caller
    gets; so is one raised by the text conversion of the landscape
    while the landscape error is made.  Conversely, once the lookup
    has succeeded, an exception the constructor ends with is one of
    the first four and no other, and an exception [to_openfoam_case]
    ends with is the case builder's. *)
Theorem collaborator_failures_propagate
    (tunnel_parameters landscape meshing_parameters zref : pyval)
    (self make2d_parameters : pyval)
    (s : state world) :
  (forall z0 e w1,
     Z0_getitem landscape = Ok z0 ->
     ext_convert_document_units_to_meters (ext s) = (Raise e, w1) ->
     from_geometries_wind_vector_and_parameters Z0_getitem
       cls name geometries wind_vector tunnel_parameters landscape
       meshing_parameters zref s =
       (Raise e, mkState w1 (calls s ++ [CallUnits]))) /\
  (forall z0 ctm w1 e,
     Z0_getitem landscape = Ok z0 ->
     ext_convert_document_units_to_meters (ext s) = (Ok ctm, w1) ->
     py_truth tunnel_parameters w1 = Raise e ->
     from_geometries_wind_vector_and_parameters Z0_getitem
       cls name geometries wind_vector tunnel_parameters landscape
       meshing_parameters zref s =
       (Raise e, mkState w1 (calls s ++ [CallUnits]))) /\
  (forall z0 ctm w1 e w2,
     Z0_getitem landscape = Ok z0 ->
     ext_convert_document_units_to_meters (ext s) = (Ok ctm, w1) ->
     py_truth tunnel_parameters w1 = Ok false ->
     ext_TunnelParameters w1 = (Raise e, w2) ->
     from_geometries_wind_vector_and_parameters Z0_getitem
       cls name geometries wind_vector tunnel_parameters landscape
       meshing_parameters zref s =
       (Raise e, mkState w2 (calls s ++ [CallUnits; CallTunnelParameters]))) /\
  (forall z0 ctm w1 b tp w2 e w3,
     Z0_getitem landscape = Ok z0 ->
     ext_convert_document_units_to_meters (ext s) = (Ok ctm, w1) ->
     py_truth tunnel_parameters w1 = Ok b ->
     (if b then (Ok tunnel_parameters, w1)
      else ext_TunnelParameters w1) = (Ok tp, w2) ->
     ext_base_from_geometries_wind_vector_and_parameters
       cls name geometries wind_vector tp z0
       meshing_parameters zref ctm w2 = (Raise e, w3) ->
     from_geometries_wind_vector_and_parameters Z0_getitem
       cls name geometries wind_vector tunnel_parameters landscape
       meshing_parameters zref s =
       (Raise e,
        mkState w3
          (calls s ++ CallUnits ::
             (if b then [] else [CallTunnelParameters]) ++
             [CallBase cls name geometries wind_vector tp z0
                meshing_parameters zref ctm]))) /\
  (forall e w1,
     ext_Case_from_wind_tunnel self make2d_parameters (ext s)
       = (Raise e, w1) ->
     to_openfoam_case self make2d_parameters s =
       (Raise e, mkState w1 (calls s ++ [CallCase self make2d_parameters]))) /\
  (forall e e',
     Z0_getitem landscape = Raise e ->
     is_Exception e = true ->
     py_str landscape (ext s) = Raise e' ->
     from_geometries_wind_vector_and_parameters Z0_getitem
       cls name geometries wind_vector tunnel_parameters landscape
       meshing_parameters zref s = (Raise e', s)) /\
  (forall z0 e s',
     Z0_getitem landscape = Ok z0 ->
     from_geometries_wind_vector_and_parameters Z0_getitem
       cls name geometries wind_vector tunnel_parameters landscape
       meshing_parameters zref s = (Raise e, s') ->
     ext_convert_document_units_to_meters (ext s) = (Raise e, ext s') \/
     (exists ctm,
        ext_convert_document_units_to_meters (ext s) = (Ok ctm, ext s') /\
        py_truth tunnel_parameters (ext s') = Raise e) \/
     (exists ctm w1,
        ext_convert_document_units_to_meters (ext s) = (Ok ctm, w1) /\
        py_truth tunnel_parameters w1 = Ok false /\
        ext_TunnelParameters w1 = (Raise e, ext s')) \/
     (exists ctm w1 b tp w2,
        ext_convert_document_units_to_meters (ext s) = (Ok ctm, w1) /\
        py_truth tunnel_parameters w1 = Ok b /\
        (if b then (Ok tunnel_parameters, w1)
         else ext_TunnelParameters w1) = (Ok tp, w2) /\
        ext_base_from_geometries_wind_vector_and_parameters
          cls name geometries wind_vector tp z0
          meshing_parameters zref ctm w2 = (Raise e, ext s'))) /\
  (forall e s',
     to_openfoam_case self make2d_parameters s = (Raise e, s') ->
     ext_Case_from_wind_tunnel self make2d_parameters (ext s)
       = (Raise e, ext s')).
Proof.
  repeat match goal with |- _ /\ _ => split end.
  - intros z0 e w1 Hz Hu. apply construct_run_sound.
    now apply run_units_failed with (z0 := z0).
  - intros z0 ctm w1 e Hz Hu Ht. apply construct_run_sound.
    now apply run_truth_failed with (z0 := z0) (ctm := ctm).
  - intros z0 ctm w1 e w2 Hz Hu Ht Hp. apply construct_run_sound.
    now apply run_default_failed with (z0 := z0) (ctm := ctm) (w1 := w1).
  - intros z0 ctm w1 b tp w2 e w3 Hz Hu Ht Hp Hb.
    rewrite (construct_after_lookup _ _ _ _ _ _ _ _ _ _ _ _ _ _ _ _
               Hz Hu Ht Hp).
    now rewrite Hb.
  - intros e w1 Hc. rewrite to_openfoam_case_run. now rewrite Hc.
  - intros e e' Hz He Hs. apply construct_run_sound.
    now apply run_text_failed with (e := e).
  - intros z0 e s' Hz E. apply construct_run_spec in E.
    inversion E; subst; cbn [ext]; try congruence.
    + now left.
    + right; left. eexists. split; eassumption.
    + right; right; right.
      exists ctm, w1, true, tunnel_parameters, w1.
      repeat split; try assumption. congruence.
    + right; right; left. exists ctm, w1. now repeat split.
    + right; right; right.
      exists ctm, w1, false, d, w2.
      repeat split; try assumption. congruence.
  - intros e s' E. rewrite to_openfoam_case_run in E.
    destruct (ext_Case_from_wind_tunnel self make2d_parameters (ext s))
      as [r w]. cbn [fst snd] in E. now inversion E.
Qed.

End Delegation.

(** ** Runs on the stand-in world *)

Example landscape_8_rejected :
  from_geometries_wind_vector_and_parameters Stub.Z0_getitem
    Stub.WindTunnelGH Stub.tunnel_name Stub.no_geometry Stub.wind
    PyNone (PyInt 8) PyNone PyNone (Stub.start Stub.healthy) =
    (Raise (ValueError ("Invalid input for landscape:8" ++ newline
                          ++ "index out of range")),
     Stub.start Stub.healthy).
Proof. reflexivity. Qed.

Example landscape_x_rejected :
  from_geometries_wind_vector_and_parameters Stub.Z0_getitem
    Stub.WindTunnelGH Stub.tunnel_name Stub.no_geometry Stub.wind
    PyNone (PyStr "x") PyNone PyNone (Stub.start Stub.healthy) =
    (Raise (ValueError ("Invalid input for landscape:x" ++ newline
                          ++ "index out of range")),
     Stub.start Stub.healthy).
Proof. reflexivity. Qed.

Example landscape_float_rejected :
  from_geometries_wind_vector_and_parameters Stub.Z0_getitem
    Stub.WindTunnelGH Stub.tunnel_name Stub.no_geometry Stub.wind
    PyNone (PyFloat 1.5%Q) PyNone PyNone (Stub.start Stub.healthy) =
    (Raise (ValueError ("Invalid input for landscape:1.5" ++ newline
                          ++ "index out of range")),
     Stub.start Stub.healthy).
Proof. reflexivity. Qed.

Example landscape_0_accepted :
  calls (snd (from_geometries_wind_vector_and_parameters Stub.Z0_getitem
                Stub.WindTunnelGH Stub.tunnel_name Stub.no_geometry Stub.wind
                Stub.tunnel (PyInt 0) PyNone PyNone
                (Stub.start Stub.healthy))) =
    [CallUnits;
     CallBase Stub.WindTunnelGH Stub.tunnel_name Stub.no_geometry
       Stub.wind Stub.tunnel (PyFloat 0.0002%Q) PyNone PyNone
       (PyFloat 0.001%Q)].
Proof. reflexivity. Qed.

Example broken_parameters_end_the_call :
  from_geometries_wind_vector_and_parameters Stub.Z0_getitem
    Stub.WindTunnelGH Stub.tunnel_name Stub.no_geometry Stub.wind
    Stub.broken (PyInt 1) PyNone PyNone (Stub.start Stub.healthy) =
    (Raise (Stub.RuntimeError "bool failed"),
     mkState Stub.healthy [CallUnits]).
Proof. reflexivity. Qed.

Example to_openfoam_case_returns_the_case :
  call_to_openfoam_case Stub.tunnel None (Stub.start Stub.healthy) =
    (Ok (PyObj 10),
     mkState (Stub.mkWorld 11 true true true true)
             [CallCase Stub.tunnel PyNone]).
Proof. reflexivity. Qed.

Example to_openfoam_case_passes_the_failure_on :
  call_to_openfoam_case Stub.tunnel None
    (Stub.start (Stub.mkWorld 10 true true true false)) =
    (Raise (Stub.RuntimeError "meshing failed"),
     mkState (Stub.mkWorld 10 true true true false)
             [CallCase Stub.tunnel PyNone]).
Proof. reflexivity. Qed.

Lemma valid_landscape_forwards_table_value_witness :
  from_geometries_wind_vector_and_parameters Stub.Z0_getitem
    Stub.WindTunnelGH Stub.tunnel_name Stub.no_geometry Stub.wind
    PyNone (PyInt 7) PyNone PyNone (Stub.start Stub.healthy) =
    (Ok (PyObj 11),
     mkState (Stub.mkWorld 12 true true true true)
       [CallUnits; CallTunnelParameters;
        CallBase Stub.WindTunnelGH Stub.tunnel_name Stub.no_geometry
          Stub.wind (PyObj 10) (PyFloat 2.0%Q) PyNone PyNone
          (PyFloat 0.001%Q)]).
Proof.
  refine (proj2 (proj2
    (valid_landscape_forwards_table_value
       Stub.error_name Stub.error_detail
       Stub.WindTunnelGH Stub.tunnel_name Stub.no_geometry Stub.wind
       PyNone PyNone PyNone (PyInt 7) 7 (Stub.start Stub.healthy)
       (PyFloat 0.001%Q) Stub.healthy false
       (PyObj 10) (Stub.mkWorld 11 true true true true)
       (PyObj 11) (Stub.mkWorld 12 true true true true)
       _ _ _ _ _ _))); try reflexivity.
  lia.
Defined.

(** The landscape is an object whose text conversion raises: the
    lookup fails, and the caller gets what the conversion raised
    in place of the landscape error. *)
Lemma invalid_landscape_raises_counterexample :
  valid_landscape Stub.broken = false /\
  from_geometries_wind_vector_and_parameters Stub.Z0_getitem
    Stub.WindTunnelGH Stub.tunnel_name Stub.no_geometry Stub.wind
    PyNone Stub.broken PyNone PyNone (Stub.start Stub.healthy) =
    (Raise (Stub.RuntimeError "format failed"), Stub.start Stub.healthy) /\
  ~ (exists err,
       fst (from_geometries_wind_vector_and_parameters Stub.Z0_getitem
              Stub.WindTunnelGH Stub.tunnel_name Stub.no_geometry Stub.wind
              PyNone Stub.broken PyNone PyNone (Stub.start Stub.healthy))
         = Raise err /\
       exn_cls err = ExceptionClass "ValueError").
Proof.
  split; [reflexivity|]. split; [reflexivity|].
  intros (err & E & C). cbn in E. inversion E; subst err.
  discriminate C.
Qed.

Lemma invalid_landscape_raises_witness :
  exists err,
    from_geometries_wind_vector_and_parameters Stub.Z0_getitem
      Stub.WindTunnelGH Stub.tunnel_name Stub.no_geometry Stub.wind
      PyNone (PyInt (-1)) PyNone PyNone (Stub.start Stub.healthy) =
      (Raise err, Stub.start Stub.healthy) /\
    exn_cls err = ExceptionClass "ValueError" /\
    exn_msg err =
      "Invalid input for landscape:" ++ "-1" ++ newline
        ++ "index out of range" /\
    contains (exn_msg err) "-1" /\
    contains (exn_msg err) "index out of range" /\
    (forall t', builtin_str (PyInt (-1)) = Some t' -> t' = "-1").
Proof.
  exact (invalid_landscape_raises
           Stub.error_name Stub.error_detail
           Stub.WindTunnelGH Stub.tunnel_name Stub.no_geometry Stub.wind
           PyNone PyNone PyNone (PyInt (-1)) (Stub.start Stub.healthy)
           "-1" eq_refl eq_refl).
Defined.

Lemma landscape_defaults_to_1_witness :
  calls (snd (call_from_geometries_wind_vector_and_parameters
                Stub.Z0_getitem
                Stub.WindTunnelGH Stub.tunnel_name Stub.no_geometry Stub.wind
                None None None None (Stub.start Stub.healthy))) =
    [CallUnits; CallTunnelParameters;
     CallBase Stub.WindTunnelGH Stub.tunnel_name Stub.no_geometry
       Stub.wind (PyObj 10) (PyFloat 0.005%Q) PyNone PyNone
       (PyFloat 0.001%Q)].
Proof.
  refine (proj2 (proj2
    (landscape_defaults_to_1
       Stub.error_name Stub.error_detail
       Stub.WindTunnelGH Stub.tunnel_name Stub.no_geometry Stub.wind
       None None None (Stub.start Stub.healthy)
       (PyFloat 0.001%Q) Stub.healthy false
       (PyObj 10) (Stub.mkWorld 11 true true true true) _ _ _)));
    reflexivity.
Defined.

Lemma lookup_failure_is_atomic_witness :
  from_geometries_wind_vector_and_parameters Stub.Z0_getitem
    Stub.WindTunnelGH Stub.tunnel_name Stub.no_geometry Stub.wind
    PyNone (PyInt 8) Stub.meshing (PyInt 10) (Stub.start Stub.healthy) =
    (Raise (ValueError ("Invalid input for landscape:8" ++ newline
                          ++ "index out of range")),
     Stub.start Stub.healthy) /\
  ext (snd (from_geometries_wind_vector_and_parameters Stub.Z0_getitem
              Stub.WindTunnelGH Stub.tunnel_name Stub.no_geometry Stub.wind
              PyNone (PyInt 8) Stub.meshing (PyInt 10)
              (Stub.start Stub.healthy))) = Stub.healthy /\
  calls (snd (from_geometries_wind_vector_and_parameters Stub.Z0_getitem
                Stub.WindTunnelGH Stub.tunnel_name Stub.no_geometry Stub.wind
                PyNone (PyInt 8) Stub.meshing (PyInt 10)
                (Stub.start Stub.healthy))) = [].
Proof.
  exact (lookup_failure_is_atomic Stub.Z0_getitem
           Stub.WindTunnelGH Stub.tunnel_name Stub.no_geometry Stub.wind
           PyNone (PyInt 8) Stub.meshing (PyInt 10)
           (Stub.start Stub.healthy)
           (lookup_error Stub.error_name Stub.error_detail (PyInt 8))
           eq_refl).
Defined.

Lemma None_parameters_replaced_by_default_witness :
  from_geometries_wind_vector_and_parameters Stub.Z0_getitem
    Stub.WindTunnelGH Stub.tunnel_name Stub.no_geometry Stub.wind
    PyNone (PyInt 1) Stub.meshing (PyInt 10) (Stub.start Stub.healthy) =
    (Ok (PyObj 11),
     mkState (Stub.mkWorld 12 true true true true)
       [CallUnits; CallTunnelParameters;
        CallBase Stub.WindTunnelGH Stub.tunnel_name Stub.no_geometry
          Stub.wind (PyObj 10) (PyFloat 0.005%Q) Stub.meshing (PyInt 10)
          (PyFloat 0.001%Q)]).
Proof.
  exact (None_parameters_replaced_by_default Stub.Z0_getitem
           Stub.WindTunnelGH Stub.tunnel_name Stub.no_geometry Stub.wind
           (PyInt 1) Stub.meshing (PyInt 10) (Stub.start Stub.healthy)
           (PyFloat 0.005%Q) (PyFloat 0.001%Q) Stub.healthy
           (PyObj 10) (Stub.mkWorld 11 true true true true)
           eq_refl eq_refl eq_refl).
Defined.

Lemma zref_and_meshing_parameters_forwarded_witness :
  calls (snd (from_geometries_wind_vector_and_parameters Stub.Z0_getitem
                Stub.WindTunnelGH Stub.tunnel_name Stub.no_geometry Stub.wind
                Stub.tunnel (PyInt 2) Stub.meshing (PyInt 10)
                (Stub.start Stub.healthy))) =
    [CallUnits;
     CallBase Stub.WindTunnelGH Stub.tunnel_name Stub.no_geometry
       Stub.wind Stub.tunnel (PyFloat 0.03%Q) Stub.meshing (PyInt 10)
       (PyFloat 0.001%Q)] /\
  calls (snd (from_geometries_wind_vector_and_parameters Stub.Z0_getitem
                Stub.WindTunnelGH Stub.tunnel_name Stub.no_geometry Stub.wind
                Stub.tunnel (PyInt 2) PyNone PyNone
                (Stub.start Stub.healthy))) =
    [CallUnits;
     CallBase Stub.WindTunnelGH Stub.tunnel_name Stub.no_geometry
       Stub.wind Stub.tunnel (PyFloat 0.03%Q) PyNone PyNone
       (PyFloat 0.001%Q)].
Proof.
  exact (zref_and_meshing_parameters_forwarded Stub.Z0_getitem
           Stub.WindTunnelGH Stub.tunnel_name Stub.no_geometry Stub.wind
           Stub.tunnel (PyInt 2) Stub.meshing (PyInt 10)
           (Stub.start Stub.healthy)
           (PyFloat 0.03%Q) (PyFloat 0.001%Q) Stub.healthy true
           Stub.tunnel Stub.healthy
           eq_refl eq_refl eq_refl eq_refl).
Defined.

Lemma to_openfoam_case_twice_witness :
  calls (snd (to_openfoam_case Stub.tunnel PyNone
                (snd (to_openfoam_case Stub.tunnel PyNone
                        (Stub.start Stub.healthy))))) =
    [CallCase Stub.tunnel PyNone; CallCase Stub.tunnel PyNone] /\
  Stub.switches
    (ext (snd (to_openfoam_case Stub.tunnel PyNone
                 (snd (to_openfoam_case Stub.tunnel PyNone
                         (Stub.start Stub.healthy)))))) =
    Stub.switches Stub.healthy.
Proof.
  assert (P : forall w,
             Stub.switches
               (snd (ext_Case_from_wind_tunnel Stub.tunnel PyNone w))
             = Stub.switches w).
  { intros [n u p b c]. destruct c; reflexivity. }
  destruct (to_openfoam_case_twice Stub.switches Stub.tunnel PyNone
              (Stub.start Stub.healthy) P) as (C & _ & _ & _ & O).
  exact (conj C O).
Defined.

Lemma collaborator_failures_propagate_witness :
  from_geometries_wind_vector_and_parameters Stub.Z0_getitem
    Stub.WindTunnelGH Stub.tunnel_name Stub.no_geometry Stub.wind
    Stub.tunnel (PyInt 1) PyNone PyNone
    (Stub.start (Stub.mkWorld 10 true true false true)) =
    (Raise (ValueError "invalid geometries"),
     mkState (Stub.mkWorld 10 true true false true)
       [CallUnits;
        CallBase Stub.WindTunnelGH Stub.tunnel_name Stub.no_geometry
          Stub.wind Stub.tunnel (PyFloat 0.005%Q) PyNone PyNone
          (PyFloat 0.001%Q)]) /\
  from_geometries_wind_vector_and_parameters Stub.Z0_getitem
    Stub.WindTunnelGH Stub.tunnel_name Stub.no_geometry Stub.wind
    Stub.broken (PyInt 1) PyNone PyNone (Stub.start Stub.healthy) =
    (Raise (Stub.RuntimeError "bool failed"),
     mkState Stub.healthy [CallUnits]).
Proof.
  split.
  - refine (proj1 (proj2 (proj2 (proj2
      (collaborator_failures_propagate Stub.Z0_getitem
         Stub.WindTunnelGH Stub.tunnel_name Stub.no_geometry Stub.wind
         Stub.tunnel (PyInt 1) PyNone PyNone Stub.tunnel PyNone
         (Stub.start (Stub.mkWorld 10 true true false true))))))
      (PyFloat 0.005%Q) (PyFloat 0.001%Q)
      (Stub.mkWorld 10 true true false true) true
      Stub.tunnel (Stub.mkWorld 10 true true false true)
      (ValueError "invalid geometries")
      (Stub.mkWorld 10 true true false true) _ _ _ _ _); reflexivity.
  - refine (proj1 (proj2
      (collaborator_failures_propagate Stub.Z0_getitem
         Stub.WindTunnelGH Stub.tunnel_name Stub.no_geometry Stub.wind
         Stub.broken (PyInt 1) PyNone PyNone Stub.tunnel PyNone
         (Stub.start Stub.healthy)))
      (PyFloat 0.005%Q) (PyFloat 0.001%Q) Stub.healthy
      (Stub.RuntimeError "bool failed") _ _ _); reflexivity.
Defined.

Lemma falsy_parameters_replaced_by_default_witness :
  from_geometries_wind_vector_and_parameters Stub.Z0_getitem
    Stub.WindTunnelGH Stub.tunnel_name Stub.no_geometry Stub.wind
    Stub.empty_bundle (PyInt 1) PyNone PyNone (Stub.start Stub.healthy) =
    (Ok (PyObj 11),
     mkState (Stub.mkWorld 12 true true true true)
       [CallUnits; CallTunnelParameters;
        CallBase Stub.WindTunnelGH Stub.tunnel_name Stub.no_geometry
          Stub.wind (PyObj 10) (PyFloat 0.005%Q) PyNone PyNone
          (PyFloat 0.001%Q)]).
Proof.
  exact (falsy_parameters_replaced_by_default Stub.Z0_getitem
           Stub.WindTunnelGH Stub.tunnel_name Stub.no_geometry Stub.wind
           Stub.empty_bundle (PyInt 1) PyNone PyNone
           (Stub.start Stub.healthy)
           (PyFloat 0.005%Q) (PyFloat 0.001%Q) Stub.healthy
           (PyObj 10) (Stub.mkWorld 11 true true true true)
           eq_refl eq_refl eq_refl eq_refl).
Defined.

(** ** Further properties of the constructor

    Which collaborators a call reaches, in which order and with which
    arguments, read off the body of
    [from_geometries_wind_vector_and_parameters]. *)

Section Reach.

Context {world : Type} `{Collaborators world}.
Variable Z0_getitem : pyval -> outcome pyval.
Variables cls name geometries wind_vector : pyval.
Variables tunnel_parameters landscape meshing_parameters zref : pyval.

Local Abbreviation construct :=
  (from_geometries_wind_vector_and_parameters Z0_getitem
     cls name geometries wind_vector tunnel_parameters landscape
     meshing_parameters zref).

Local Abbreviation base_call tp z0 ctm :=
  (CallBase cls name geometries wind_vector tp z0
     meshing_parameters zref ctm).

Local Abbreviation ext_base tp z0 ctm :=
  (ext_base_from_geometries_wind_vector_and_parameters
     cls name geometries wind_vector tp z0 meshing_parameters zref ctm).

Ltac run_cases s R :=
  pose proof (construct_run_total Z0_getitem cls name geometries
                wind_vector tunnel_parameters landscape
                meshing_parameters zref s) as R;
  destruct (construct s) as [? ?]; cbn [fst snd] in R |- *;
  inversion R; subst; clear R; cbn [ext calls].

Ltac nothing_added E :=
  match type of E with
  | calls ?x = _ => rewrite <- (app_nil_r (calls x)) in E at 1
  end;
  apply app_inv_head in E; discriminate E.

(** X1.  Tunnel parameters that test true are passed on as they are,
    and [TunnelParameters()] is not called. *)
Theorem true_parameters_are_kept
    (s : state world) (z0 ctm : pyval) (w1 : world) :
  Z0_getitem landscape = Ok z0 ->
  ext_convert_document_units_to_meters (ext s) = (Ok ctm, w1) ->
  py_truth tunnel_parameters w1 = Ok true ->
  construct s =
    (fst (ext_base tunnel_parameters z0 ctm w1),
     mkState (snd (ext_base tunnel_parameters z0 ctm w1))
       (calls s ++ [CallUnits; base_call tunnel_parameters z0 ctm])).
Proof.
  intros Hz Hu Ht. apply construct_run_sound.
  eapply run_given_parameters; eauto using surjective_pairing.
Qed.

(** X2.  A lookup failure that is not an [Exception] (KeyboardInterrupt,
    SystemExit) passes the [except Exception] clause: the caller gets
    it as it is, not as a [ValueError], and nothing else has run. *)
Theorem lookup_interrupt_not_rewrapped (s : state world) (e : exn) :
  Z0_getitem landscape = Raise e ->
  is_Exception e = false ->
  construct s = (Raise e, s).
Proof.
  intros Hz He. apply construct_run_sound.
  now apply run_lookup_interrupted.
Qed.

(** X4.  The calls one run makes.  The log grows by nothing (lookup
    failed), by the unit query alone, by the unit query and
    [TunnelParameters()], or by these followed by one call of the base
    constructor, which comes last.  The base constructor gets [cls],
    [name], [geometries], [wind_vector], [meshing_parameters] and
    [zref] as the caller gave them, the roughness the lookup returned
    and the factor the unit query returned.  The case builder is never
    called. *)
Theorem constructor_call_log (s : state world) :
  exists new,
    calls (snd (construct s)) = (calls s ++ new)%list /\
    (new = [] \/
     new = [CallUnits] \/
     new = [CallUnits; CallTunnelParameters] \/
     exists tp z0 ctm w1,
       Z0_getitem landscape = Ok z0 /\
       ext_convert_document_units_to_meters (ext s) = (Ok ctm, w1) /\
       ((tp = tunnel_parameters /\
         new = [CallUnits; base_call tp z0 ctm]) \/
        new = [CallUnits; CallTunnelParameters; base_call tp z0 ctm])).
Proof.
  run_cases s R.
  - exists []. split; [now rewrite app_nil_r | now left].
  - exists []. split; [now rewrite app_nil_r | now left].
  - exists []. split; [now rewrite app_nil_r | now left].
  - exists [CallUnits]. split; [reflexivity | now right; left].
  - exists [CallUnits]. split; [reflexivity | now right; left].
  - eexists. split; [reflexivity|].
    right; right; right. exists tunnel_parameters, z0, ctm, w1.
    repeat split; try assumption. now left.
  - eexists. split; [reflexivity | now right; right; left].
  - eexists. split; [reflexivity|].
    right; right; right. exists d, z0, ctm, w1.
    repeat split; try assumption. now right.
Qed.

(** X5.  A value the constructor returns is the value the base
    constructor returned, called with a roughness that the lookup gave
    for this landscape; that call is the last one logged. *)
Theorem returned_instance_is_the_base_instance
    (s s' : state world) (v : pyval) :
  construct s = (Ok v, s') ->
  exists tp z0 ctm w2 before,
    Z0_getitem landscape = Ok z0 /\
    ext_base tp z0 ctm w2 = (Ok v, ext s') /\
    calls s' = (before ++ [base_call tp z0 ctm])%list.
Proof.
  intros E. apply construct_run_spec in E.
  inversion E; subst; cbn [ext calls].
  - exists tunnel_parameters, z0, ctm, w1, (calls s ++ [CallUnits])%list.
    repeat split; try assumption. now rewrite <- app_assoc.
  - exists d, z0, ctm, w2,
      (calls s ++ [CallUnits; CallTunnelParameters])%list.
    repeat split; try assumption. now rewrite <- app_assoc.
Qed.

(** X6.  Building the tunnel and then its case,
    [WindTunnelGH.from_geometries_wind_vector_and_parameters(...)
       .to_openfoam_case(make2d_parameters)]:
    the case builder is called last, with the instance the base
    constructor returned, and the result is the builder's. *)
Theorem case_is_built_from_the_base_instance
    (make2d_parameters : pyval) (s : state world)
    (z0 ctm : pyval) (w1 : world) (b : bool) (tp : pyval) (w2 : world)
    (inst : pyval) (w3 : world) :
  Z0_getitem landscape = Ok z0 ->
  ext_convert_document_units_to_meters (ext s) = (Ok ctm, w1) ->
  py_truth tunnel_parameters w1 = Ok b ->
  (if b then (Ok tunnel_parameters, w1)
   else ext_TunnelParameters w1) = (Ok tp, w2) ->
  ext_base tp z0 ctm w2 = (Ok inst, w3) ->
  bind construct (fun t => to_openfoam_case t make2d_parameters) s =
    (fst (ext_Case_from_wind_tunnel inst make2d_parameters w3),
     mkState (snd (ext_Case_from_wind_tunnel inst make2d_parameters w3))
       (calls s ++ CallUnits ::
          (if b then [] else [CallTunnelParameters]) ++
          [base_call tp z0 ctm; CallCase inst make2d_parameters])).
Proof.
  intros Hz Hu Ht Hp Hb. unfold bind.
  rewrite (construct_after_lookup _ _ _ _ _ _ _ _ _ _ _ _ _ _ _ _
             Hz Hu Ht Hp).
  rewrite Hb. cbn [fst snd].
  rewrite to_openfoam_case_run. cbn [ext calls].
  destruct b; cbn [app]; now rewrite <- app_assoc.
Qed.

(** X7.  The unit query is made exactly when the lookup succeeded, and
    then it is the first call, whatever the other arguments are. *)
Theorem unit_query_iff_lookup_succeeds (s : state world) :
  (exists z0, Z0_getitem landscape = Ok z0) <->
  (exists rest,
     calls (snd (construct s)) = (calls s ++ CallUnits :: rest)%list).
Proof.
  split.
  - intros [z Hz]. run_cases s R; try congruence; eexists; reflexivity.
  - intros [rest E]. revert E. run_cases s R; intros E;
      try (eexists; eassumption); nothing_added E.
Qed.

(** X8.  [TunnelParameters()] is called only when it is needed: exactly
    when the lookup and the unit query succeeded and the caller's
    tunnel parameters test false. *)
Theorem default_parameters_built_only_when_needed (s : state world) :
  exists new,
    calls (snd (construct s)) = (calls s ++ new)%list /\
    (In CallTunnelParameters new <->
     exists z0 ctm w1,
       Z0_getitem landscape = Ok z0 /\
       ext_convert_document_units_to_meters (ext s) = (Ok ctm, w1) /\
       py_truth tunnel_parameters w1 = Ok false).
Proof.
  run_cases s R.
  - exists []. split; [now rewrite app_nil_r|].
    split; [intros [] | intros (z & c & w & Hz & _); congruence].
  - exists []. split; [now rewrite app_nil_r|].
    split; [intros [] | intros (z & c & w & Hz & _); congruence].
  - exists []. split; [now rewrite app_nil_r|].
    split; [intros [] | intros (z & c & w & Hz & _); congruence].
  - exists [CallUnits]. split; [reflexivity|]. split.
    + intros [D | []]; discriminate.
    + intros (z & c & w & _ & Hu & _). congruence.
  - exists [CallUnits]. split; [reflexivity|]. split.
    + intros [D | []]; discriminate.
    + intros (z & c & w & _ & Hu & Ht). same_answers; try congruence.
  - eexists. split; [reflexivity|]. split.
    + intros [D | [D | []]]; discriminate.
    + intros (z & c & w & _ & Hu & Ht). same_answers; try congruence.
  - eexists. split; [reflexivity|]. split.
    + intros _. now exists z0, ctm, w1.
    + intros _. cbn. auto.
  - eexists. split; [reflexivity|]. split.
    + intros _. now exists z0, ctm, w1.
    + intros _. cbn. auto.
Qed.

End Reach.

(** ** What the landscape error keeps of the lookup failure *)

Section Rewrap.

Context {world : Type} `{Collaborators world}.
Variables cls name geometries wind_vector : pyval.
Variables tunnel_parameters landscape meshing_parameters zref : pyval.

(** X3.  When the text conversion of the landscape returns [t], the
    landscape error has the class [ValueError] and a message made of
    [t] and the text of the lookup failure, whatever the class of that
    failure: two tables that fail with the same text, be it as an
    IndexError, a KeyError or a TypeError, give errors of the same
    class with the same message. *)
Theorem landscape_error_drops_the_class
    (table1 table2 : pyval -> outcome pyval) (e1 e2 : exn)
    (s : state world) (t : string) :
  table1 landscape = Raise e1 ->
  table2 landscape = Raise e2 ->
  is_Exception e1 = true ->
  is_Exception e2 = true ->
  exn_msg e1 = exn_msg e2 ->
  py_str landscape (ext s) = Ok t ->
  exists err1 err2,
    from_geometries_wind_vector_and_parameters table1
      cls name geometries wind_vector tunnel_parameters landscape
      meshing_parameters zref s = (Raise err1, s) /\
    from_geometries_wind_vector_and_parameters table2
      cls name geometries wind_vector tunnel_parameters landscape
      meshing_parameters zref s = (Raise err2, s) /\
    exn_cls err1 = ExceptionClass "ValueError" /\
    exn_cls err2 = ExceptionClass "ValueError" /\
    exn_msg err1 =
      "Invalid input for landscape:" ++ t ++ newline ++ exn_msg e1 /\
    exn_msg err2 = exn_msg err1.
Proof.
  intros H1 H2 E1 E2 Hm Hs.
  pose proof (construct_lookup_failed table1 cls name geometries
                wind_vector tunnel_parameters landscape
                meshing_parameters zref s e1 H1) as R1.
  pose proof (construct_lookup_failed table2 cls name geometries
                wind_vector tunnel_parameters landscape
                meshing_parameters zref s e2 H2) as R2.
  rewrite E1 in R1. rewrite E2 in R2.
  unfold invalid_landscape_message in R1, R2.
  rewrite Hs in R1, R2. cbv beta iota in R1, R2.
  do 2 eexists. split; [exact R1|]. split; [exact R2|].
  cbn [exn_cls exn_msg ValueError]. rewrite Hm. now repeat split.
Qed.

End Rewrap.

(** ** More runs on the stand-in world *)

Lemma true_parameters_are_kept_witness :
  from_geometries_wind_vector_and_parameters Stub.Z0_getitem
    Stub.WindTunnelGH Stub.tunnel_name Stub.no_geometry Stub.wind
    (PyObj 4) (PyInt 3) Stub.meshing PyNone (Stub.start Stub.healthy) =
    (Ok (PyObj 10),
     mkState (Stub.mkWorld 11 true true true true)
       [CallUnits;
        CallBase Stub.WindTunnelGH Stub.tunnel_name Stub.no_geometry
          Stub.wind (PyObj 4) (PyFloat 0.10%Q) Stub.meshing PyNone
          (PyFloat 0.001%Q)]).
Proof.
  exact (true_parameters_are_kept Stub.Z0_getitem
           Stub.WindTunnelGH Stub.tunnel_name Stub.no_geometry Stub.wind
           (PyObj 4) (PyInt 3) Stub.meshing PyNone
           (Stub.start Stub.healthy)
           (PyFloat 0.10%Q) (PyFloat 0.001%Q) Stub.healthy
           eq_refl eq_refl eq_refl).
Defined.

Lemma lookup_interrupt_not_rewrapped_witness :
  from_geometries_wind_vector_and_parameters
    (fun _ => Raise (mkExn (BaseOnlyClass "KeyboardInterrupt") ""))
    Stub.WindTunnelGH Stub.tunnel_name Stub.no_geometry Stub.wind
    PyNone (PyInt 1) PyNone PyNone (Stub.start Stub.healthy) =
    (Raise (mkExn (BaseOnlyClass "KeyboardInterrupt") ""),
     Stub.start Stub.healthy).
Proof.
  exact (lookup_interrupt_not_rewrapped
           (fun _ => Raise (mkExn (BaseOnlyClass "KeyboardInterrupt") ""))
           Stub.WindTunnelGH Stub.tunnel_name Stub.no_geometry Stub.wind
           PyNone (PyInt 1) PyNone PyNone (Stub.start Stub.healthy)
           (mkExn (BaseOnlyClass "KeyboardInterrupt") "")
           eq_refl eq_refl).
Defined.

Lemma landscape_error_drops_the_class_witness :
  exists err1 err2,
    from_geometries_wind_vector_and_parameters
      (fun _ => Raise (mkExn (ExceptionClass "IndexError") "no entry"))
      Stub.WindTunnelGH Stub.tunnel_name Stub.no_geometry Stub.wind
      PyNone (PyInt 9) PyNone PyNone (Stub.start Stub.healthy) =
      (Raise err1, Stub.start Stub.healthy) /\
    from_geometries_wind_vector_and_parameters
      (fun _ => Raise (mkExn (ExceptionClass "TypeError") "no entry"))
      Stub.WindTunnelGH Stub.tunnel_name Stub.no_geometry Stub.wind
      PyNone (PyInt 9) PyNone PyNone (Stub.start Stub.healthy) =
      (Raise err2, Stub.start Stub.healthy) /\
    exn_cls err1 = ExceptionClass "ValueError" /\
    exn_cls err2 = ExceptionClass "ValueError" /\
    exn_msg err1 =
      "Invalid input for landscape:" ++ "9" ++ newline ++ "no entry" /\
    exn_msg err2 = exn_msg err1.
Proof.
  exact (landscape_error_drops_the_class
           Stub.WindTunnelGH Stub.tunnel_name Stub.no_geometry Stub.wind
           PyNone (PyInt 9) PyNone PyNone
           (fun _ => Raise (mkExn (ExceptionClass "IndexError") "no entry"))
           (fun _ => Raise (mkExn (ExceptionClass "TypeError") "no entry"))
           (mkExn (ExceptionClass "IndexError") "no entry")
           (mkExn (ExceptionClass "TypeError") "no entry")
           (Stub.start Stub.healthy) "9"
           eq_refl eq_refl eq_refl eq_refl eq_refl eq_refl).
Defined.

Lemma returned_instance_is_the_base_instance_witness :
  exists tp z0 ctm w2 before,
    Stub.Z0_getitem (PyInt 5) = Ok z0 /\
    ext_base_from_geometries_wind_vector_and_parameters
      Stub.WindTunnelGH Stub.tunnel_name Stub.no_geometry Stub.wind
      tp z0 Stub.meshing (PyInt 10) ctm w2 =
      (Ok (PyObj 11), Stub.mkWorld 12 true true true true) /\
    [CallUnits; CallTunnelParameters;
     CallBase Stub.WindTunnelGH Stub.tunnel_name Stub.no_geometry
       Stub.wind (PyObj 10) (PyFloat 0.5%Q) Stub.meshing (PyInt 10)
       (PyFloat 0.001%Q)] =
    (before ++
       [CallBase Stub.WindTunnelGH Stub.tunnel_name Stub.no_geometry
          Stub.wind tp z0 Stub.meshing (PyInt 10) ctm])%list.
Proof.
  exact (returned_instance_is_the_base_instance Stub.Z0_getitem
           Stub.WindTunnelGH Stub.tunnel_name Stub.no_geometry Stub.wind
           PyNone (PyInt 5) Stub.meshing (PyInt 10)
           (Stub.start Stub.healthy)
           (mkState (Stub.mkWorld 12 true true true true)
              [CallUnits; CallTunnelParameters;
               CallBase Stub.WindTunnelGH Stub.tunnel_name
                 Stub.no_geometry Stub.wind (PyObj 10) (PyFloat 0.5%Q)
                 Stub.meshing (PyInt 10) (PyFloat 0.001%Q)])
           (PyObj 11) eq_refl).
Defined.

Lemma case_is_built_from_the_base_instance_witness :
  bind (from_geometries_wind_vector_and_parameters Stub.Z0_getitem
          Stub.WindTunnelGH Stub.tunnel_name Stub.no_geometry Stub.wind
          PyNone (PyInt 6) PyNone PyNone)
       (fun t => to_openfoam_case t PyNone) (Stub.start Stub.healthy) =
    (Ok (PyObj 12),
     mkState (Stub.mkWorld 13 true true true true)
       [CallUnits; CallTunnelParameters;
        CallBase Stub.WindTunnelGH Stub.tunnel_name Stub.no_geometry
          Stub.wind (PyObj 10) (PyFloat 1.0%Q) PyNone PyNone
          (PyFloat 0.001%Q);
        CallCase (PyObj 11) PyNone]).
Proof.
  exact (case_is_built_from_the_base_instance Stub.Z0_getitem
           Stub.WindTunnelGH Stub.tunnel_name Stub.no_geometry Stub.wind
           PyNone (PyInt 6) PyNone PyNone PyNone
           (Stub.start Stub.healthy)
           (PyFloat 1.0%Q) (PyFloat 0.001%Q) Stub.healthy false
           (PyObj 10) (Stub.mkWorld 11 true true true true)
           (PyObj 11) (Stub.mkWorld 12 true true true true)
           eq_refl eq_refl eq_refl eq_refl eq_refl).
Defined.
